(** * Verification of [cloud_monitor/core/base.py]

    A shallow embedding of the three classes of the module
    ([MetricData], [CloudResource], [Alert]) together with the part of
    Python's [datetime] they rely on ([datetime.now], [isoformat]).

    Python objects are records, the dictionaries built by [to_dict] are
    finite maps from strings to a small universe of Python values, and
    methods are computations in a state-and-exception monad: the state
    holds the receiver and the process clock, so that "this call does
    not mutate anything" is a statement about the final state.
    Arguments have the types of their annotations ([str], [float],
    [Optional[datetime]]).

    The module has no alerting rules and no alert engine; the last part
    models the ones the specification describes and checks the
    invariant it states for them. *)

From Stdlib Require Import ZArith String Ascii List Lia Bool.
From Stdlib Require Import SpecFloat DecimalString.
From stdpp Require Import base option gmap strings list fin_maps.

Local Open Scope string_scope.
Local Open Scope Z_scope.

(** ** Python values *)

(** A Python [float] is an IEEE-754 binary64 number. *)
Definition pyfloat : Type := spec_float.

Definition float_finite (f : pyfloat) : bool :=
  match f with
  | S754_zero _ | S754_finite _ _ _ => true
  | S754_infinity _ | S754_nan => false
  end.

Definition float_of_Z (z : Z) : pyfloat :=
  match z with
  | Z0 => S754_zero false
  | Zpos p => binary_round 53 1024 false p 0
  | Zneg p => binary_round 53 1024 true p 0
  end.

(** The values stored in the dictionaries of this module. *)
Inductive pyvalue : Type :=
  | PStr (s : string)
  | PFloat (f : pyfloat)
  | PBool (b : bool).

(** The exceptions the module raises. *)
Inductive exn : Type :=
  | NotImplementedError (msg : string).

(** ** [datetime] *)

Module Datetime.

Definition is_leap (y : Z) : bool :=
  (y mod 4 =? 0) && (negb (y mod 100 =? 0) || (y mod 400 =? 0)).

Definition days_in_month (y m : Z) : Z :=
  if m =? 2 then (if is_leap y then 29 else 28)
  else if (m =? 4) || (m =? 6) || (m =? 9) || (m =? 11) then 30
  else 31.

Definition between (lo x hi : Z) : bool := (lo <=? x) && (x <=? hi).

Definition check_date_fields (y m d : Z) : bool :=
  between 1 y 9999 && between 1 m 12 && between 1 d (days_in_month y m).

Definition check_time_fields (h mi s us : Z) : bool :=
  between 0 h 23 && between 0 mi 59 && between 0 s 59 && between 0 us 999999.

(** One day, in microseconds: a UTC offset lies strictly between
    minus one day and one day. *)
Definition day_us : Z := 86400000000.

Definition check_utcoffset (off : option Z) : bool :=
  match off with
  | None => true
  | Some o => (- day_us <? o) && (o <? day_us)
  end.

Definition check_fields (y m d h mi s us : Z) (off : option Z) : bool :=
  check_date_fields y m d && check_time_fields h mi s us && check_utcoffset off.

(** A [datetime] object.  The constructor of the Python class raises
    [ValueError] outside the ranges above, so every object satisfies
    them; [tzinfo] is kept as the value [utcoffset()] returns, in
    microseconds ([None] for a naive object).  Two objects are equal
    here when [==] holds of them in Python: [fold] and the name of the
    time zone, which [==] ignores and [isoformat] does not write, are
    not part of the value. *)
Record datetime : Type := mk_datetime {
  year : Z; month : Z; day : Z;
  hour : Z; minute : Z; second : Z; microsecond : Z;
  utcoffset : option Z;
  fields_ok : Is_true (check_fields year month day hour minute second microsecond utcoffset)
}.

(** The checking constructor, as used by a parser. *)
Definition make (y m d h mi s us : Z) (off : option Z) : option datetime :=
  match decide (Is_true (check_fields y m d h mi s us off)) with
  | left ok => Some (mk_datetime y m d h mi s us off ok)
  | right _ => None
  end.

(** [datetime] defines neither [__bool__] nor [__len__]: every
    instance is truthy. *)
Definition truthy (_ : datetime) : bool := true.

(** *** The instant of a [datetime]

    Days since 0001-01-01 as [toordinal()] counts them, then
    microseconds on the UTC time line (a naive object is read at
    offset zero). *)

Definition days_before_year (y : Z) : Z :=
  let p := y - 1 in p * 365 + p / 4 - p / 100 + p / 400.

Definition days_before_month (y m : Z) : Z :=
  foldr (fun i acc => days_in_month y i + acc) 0 (seqZ 1 (m - 1)).

Definition toordinal (d : datetime) : Z :=
  days_before_year (year d) + days_before_month (year d) (month d) + day d.

Definition instant_us (d : datetime) : Z :=
  (((toordinal d * 24 + hour d) * 60 + minute d) * 60 + second d) * 1000000
  + microsecond d - default 0 (utcoffset d).

(** *** Formatting: ["%0kd" % n] *)

Definition digit_char (d : Z) : ascii := ascii_of_nat (48 + Z.to_nat d).

Definition digit_val (c : ascii) : option Z :=
  let n := Z.of_nat (nat_of_ascii c) in
  if between 48 n 57 then Some (n - 48) else None.

Definition pow10 (k : nat) : Z := 10 ^ Z.of_nat k.

(** The [k] low decimal digits of [n], most significant first. *)
Fixpoint fixed_digits (k : nat) (n : Z) : string :=
  match k with
  | O => ""
  | S k' => String (digit_char (n / pow10 k')) (fixed_digits k' (n mod pow10 k'))
  end.

(** Zero padding is a minimum width: digits above position [k] are
    printed, not dropped. *)
Definition fmt_nonneg (k : nat) (n : Z) : string :=
  let hi := n / pow10 k in
  (if hi =? 0 then "" else NilEmpty.string_of_uint (Pos.to_uint (Z.to_pos hi)))
    +:+ fixed_digits k (n mod pow10 k).

Definition fmt_d (k : nat) (n : Z) : string :=
  if n <? 0 then "-" +:+ fmt_nonneg (Nat.pred k) (- n) else fmt_nonneg k n.

(** *** [isoformat()], with the default [sep='T'], [timespec='auto'] *)

Definition format_time (h mi s us : Z) : string :=
  fmt_d 2 h +:+ ":" +:+ fmt_d 2 mi +:+ ":" +:+ fmt_d 2 s
    +:+ (if us =? 0 then "" else "." +:+ fmt_d 6 us).

(** [_format_offset]: the sign, then the magnitude as [HH:MM], with
    [:SS] when the offset has seconds or microseconds and [.ffffff]
    when it has microseconds. *)
Definition format_offset_abs (a : Z) : string :=
  let hh := a / 3600000000 in
  let r := a mod 3600000000 in
  let mm := r / 60000000 in
  let ss := r mod 60000000 in
  fmt_d 2 hh +:+ ":" +:+ fmt_d 2 mm
    +:+ (if ss =? 0 then ""
         else ":" +:+ fmt_d 2 (ss / 1000000)
                +:+ (if ss mod 1000000 =? 0 then ""
                     else "." +:+ fmt_d 6 (ss mod 1000000))).

Definition format_offset (off : option Z) : string :=
  match off with
  | None => ""
  | Some o =>
      if o <? 0 then "-" +:+ format_offset_abs (- o)
      else "+" +:+ format_offset_abs o
  end.

Definition isoformat (d : datetime) : string :=
  fmt_d 4 (year d) +:+ "-" +:+ fmt_d 2 (month d) +:+ "-" +:+ fmt_d 2 (day d)
    +:+ "T" +:+ format_time (hour d) (minute d) (second d) (microsecond d)
    +:+ format_offset (utcoffset d).

(** *** Parsing the strings [isoformat] writes

    [fromisoformat] restricted to the grammar
    [YYYY-MM-DDTHH:MM:SS[.ffffff][(+|-)HH:MM[:SS[.ffffff]]]]; the
    fields go through the checking constructor. *)

Fixpoint parse_digits (k : nat) (acc : Z) (s : string) : option (Z * string) :=
  match k with
  | O => Some (acc, s)
  | S k' =>
      match s with
      | String c s' =>
          match digit_val c with
          | Some d => parse_digits k' (10 * acc + d) s'
          | None => None
          end
      | EmptyString => None
      end
  end.

Definition expect (c : ascii) (s : string) : option string :=
  match s with
  | String c' s' => if Ascii.eqb c c' then Some s' else None
  | EmptyString => None
  end.

(** An optional [.ffffff] group. *)
Definition parse_fraction (s : string) : option (Z * string) :=
  match s with
  | String "."%char s' => parse_digits 6 0 s'
  | _ => Some (0, s)
  end.

(** What follows an absent fraction does not start one. *)
Definition no_dot (s : string) : Prop :=
  match s with String "."%char _ => False | _ => True end.

(** The offset runs to the end of the string.  ISO 8601 writes an
    offset as hours and minutes; [isoformat] adds [:SS[.ffffff]] for
    an offset that is not a whole number of minutes, which [strict]
    refuses. *)
Definition parse_offset (strict : bool) (s : string) : option (option Z) :=
  match s with
  | EmptyString => Some None
  | String c s0 =>
      sign ← (if Ascii.eqb c "+" then Some 1
              else if Ascii.eqb c "-" then Some (-1) else None);
      '(hh, s1) ← parse_digits 2 0 s0;
      s2 ← expect ":" s1;
      '(mm, s3) ← parse_digits 2 0 s2;
      '(ss, us) ←
        match s3 with
        | EmptyString => Some (0, 0)
        | String c' s4 =>
            if negb strict && Ascii.eqb c' ":" then
              '(ss, s5) ← parse_digits 2 0 s4;
              '(us, s6) ← parse_fraction s5;
              match s6 with EmptyString => Some (ss, us) | _ => None end
            else None
        end;
      if between 0 mm 59 && between 0 ss 59
      then Some (Some (sign * (((hh * 60 + mm) * 60 + ss) * 1000000 + us)))
      else None
  end.

Definition parse_datetime (strict : bool) (s : string) : option datetime :=
  '(y, s) ← parse_digits 4 0 s;
  s ← expect "-" s;
  '(m, s) ← parse_digits 2 0 s;
  s ← expect "-" s;
  '(d, s) ← parse_digits 2 0 s;
  s ← expect "T" s;
  '(h, s) ← parse_digits 2 0 s;
  s ← expect ":" s;
  '(mi, s) ← parse_digits 2 0 s;
  s ← expect ":" s;
  '(sec, s) ← parse_digits 2 0 s;
  '(us, s) ← parse_fraction s;
  off ← parse_offset strict s;
  make y m d h mi sec us off.

(** [parse_datetime false] reads back exactly what [isoformat] wrote.
    [datetime.fromisoformat] reads the same fields, but it builds the
    offset from its whole seconds and its microseconds and returns UTC
    when the whole seconds are zero, whatever the microseconds: an
    offset of less than a second comes back as zero. *)
Definition library_offset (off : option Z) : option Z :=
  match off with
  | None => None
  | Some o => if Z.quot o 1000000 =? 0 then Some 0 else Some o
  end.

Definition fromisoformat (s : string) : option datetime :=
  d ← parse_datetime false s;
  make (year d) (month d) (day d) (hour d) (minute d) (second d)
       (microsecond d) (library_offset (utcoffset d)).

(** The offsets [fromisoformat] returns as they were written: none,
    zero, or one second and more either way. *)
Definition offset_read_back (off : option Z) : Prop :=
  match off with
  | None => True
  | Some o => o = 0 \/ 1000000 <= Z.abs o
  end.

(** The date and the time of day, without the offset. *)
Definition civil (d : datetime) : Z * Z * Z * Z * Z * Z * Z :=
  (year d, month d, day d, hour d, minute d, second d, microsecond d).

(** A string is an ISO 8601 date-time when it reads as one with an
    offset, if any, in hours and minutes: of the strings [isoformat]
    writes, ISO 8601 has those and no others. *)
Definition is_iso8601 (s : string) : bool :=
  bool_decide (is_Some (parse_datetime true s)).

Definition whole_minutes (off : option Z) : Prop :=
  match off with
  | None => True
  | Some o => o mod 60000000 = 0
  end.

Global Instance whole_minutes_dec (off : option Z) : Decision (whole_minutes off) :=
  match off with
  | None => left I
  | Some o => decide (o mod 60000000 = 0)
  end.

End Datetime.

Import Datetime.


(** ** Effects: exceptions, the clock, the receiver *)

(** A computation over a state [S] returns or raises, and leaves a
    final state. *)
Definition M (S A : Type) : Type := S -> (exn + A) * S.

Global Instance M_ret {S} : MRet (M S) := fun A a s => (inr a, s).

Global Instance M_bind {S} : MBind (M S) := fun A B f m s =>
  match m s with
  | (inl e, s') => (inl e, s')
  | (inr a, s') => f a s'
  end.

Definition raise {S A} (e : exn) : M S A := fun s => (inl e, s).
Definition gets {S A} (f : S -> A) : M S A := fun s => (inr (f s), s).
Definition modify {S} (f : S -> S) : M S unit := fun s => (inr tt, f s).

(** A reading of the clock.  [datetime.now()] is called without a
    time zone, so what it returns is naive. *)
Record reading : Type := mk_reading {
  reading_time : datetime;
  reading_naive : utcoffset reading_time = None
}.

(** The process clock: the readings [datetime.now()] will return, and
    how many have been taken. *)
Record World : Type := mk_World {
  clock : nat -> reading;
  ticks : nat
}.

Definition current_time (w : World) : datetime := reading_time (clock w (ticks w)).

(** [datetime.now()] *)
Definition now : M World datetime := fun w =>
  (inr (current_time w), {| clock := clock w; ticks := S (ticks w) |}).

(** A method runs against its receiver and the world. *)
Record Frame (T : Type) : Type := mk_Frame {
  self : T;
  world : World
}.
Arguments mk_Frame {T} _ _.
Arguments self {T} _.
Arguments world {T} _.

Definition in_world {T A} (m : M World A) : M (Frame T) A := fun fr =>
  let (r, w') := m (world fr) in (r, {| self := self fr; world := w' |}).

Definition raises {A} (r : exn + A) : Prop := exists e, r = inl e.

(** A Python [dict] with string keys. *)
Abbreviation Dict := (gmap string pyvalue).

(** ** [class MetricData] *)

Module MetricData.

Record t : Type := mk {
  name : string;
  value : pyfloat;
  unit : string;
  timestamp : datetime
}.

(** [self.timestamp = timestamp or datetime.now()] *)
Definition __init__ (name : string) (value : pyfloat) (unit : string)
    (timestamp : option datetime) : M World t :=
  ts ← match timestamp with
       | Some ts => if truthy ts then mret ts else now
       | None => now
       end;
  mret {| name := name; value := value; unit := unit; timestamp := ts |}.

Definition to_dict : M (Frame t) Dict :=
  self ← gets self;
  mret (<["timestamp" := PStr (isoformat (timestamp self))]>
         (<["unit" := PStr (unit self)]>
           (<["value" := PFloat (value self)]>
             (<["name" := PStr (name self)]> ∅)))).

End MetricData.

(** ** [class CloudResource] *)

Module CloudResource.

Record t : Type := mk {
  resource_id : string;
  resource_type : string;
  region : string;
  metadata : Dict;
  metrics : Dict;
  status : string
}.

Definition __init__ (resource_id resource_type region : string) : M World t :=
  mret {| resource_id := resource_id; resource_type := resource_type;
          region := region; metadata := ∅; metrics := ∅;
          status := "unknown" |}.

Definition collect_metrics : M (Frame t) Dict :=
  raise (NotImplementedError "Each resource type must implement collect_metrics()").

Definition get_health_status : M (Frame t) string :=
  self ← gets self;
  mret (status self).

End CloudResource.

(** ** [class Alert] *)

Module Alert.

Record t : Type := mk {
  resource_id : string;
  metric_name : string;
  threshold : pyfloat;
  current_value : pyfloat;
  severity : string;
  timestamp : datetime;
  resolved : bool
}.

Definition __init__ (resource_id metric_name : string)
    (threshold current_value : pyfloat) (severity : string) : M World t :=
  ts ← now;
  mret {| resource_id := resource_id; metric_name := metric_name;
          threshold := threshold; current_value := current_value;
          severity := severity; timestamp := ts; resolved := false |}.

Definition to_dict : M (Frame t) Dict :=
  self ← gets self;
  mret (<["resolved" := PBool (resolved self)]>
         (<["timestamp" := PStr (isoformat (timestamp self))]>
           (<["severity" := PStr (severity self)]>
             (<["current_value" := PFloat (current_value self)]>
               (<["threshold" := PFloat (threshold self)]>
                 (<["metric_name" := PStr (metric_name self)]>
                   (<["resource_id" := PStr (resource_id self)]> ∅))))))).

End Alert.

(** ** The alerting rules and engine of the specification

    [base.py] has no rule type and no engine; the definitions of this
    part follow sections 3 and 4.3 of the specification. *)

Module ThresholdRule.

(** Modelled from the spec: the enumeration [{gt, lt, gte, lte}] of
    comparison operators, which the source does not define. *)
Inductive comparison : Type := cmp_gt | cmp_lt | cmp_gte | cmp_lte.

(** Modelled from the spec: the rule record
    [{metric_name, comparison, threshold, severity}], which the
    source does not define. *)
Record t : Type := mk {
  metric_name : string;
  comparison_op : comparison;
  threshold : pyfloat;
  severity : string
}.

(** Modelled from the spec: the predicate of a rule, the comparison
    operator applied to [(sample.value, rule.threshold)], equality
    satisfying [gte] and [lte]; the source has no such predicate. *)
Definition satisfied (r : t) (v : pyfloat) : bool :=
  match comparison_op r with
  | cmp_gt => SFltb (threshold r) v
  | cmp_lt => SFltb v (threshold r)
  | cmp_gte => SFleb (threshold r) v
  | cmp_lte => SFleb v (threshold r)
  end.

End ThresholdRule.

Module AlertEngine.

Abbreviation key := (string * string)%type.

(** Modelled from the spec: the engine state, "the mapping of
    open-alert keys to Alert", absent from the source. *)
Record t : Type := mk {
  open_alerts : gmap key Alert.t
}.

(** Modelled from the spec: "initialized empty at engine
    construction"; the source has no engine constructor. *)
Definition empty : t := {| open_alerts := ∅ |}.

(** Modelled from the spec: "the most recent sample matching
    metric_name", absent from the source; among samples of the same
    instant the first one met is kept. *)
Definition most_recent (metric : string) (samples : list MetricData.t)
    : option MetricData.t :=
  foldl (fun best s =>
           if bool_decide (MetricData.name s = metric) then
             match best with
             | None => Some s
             | Some b =>
                 if instant_us (MetricData.timestamp b)
                      <? instant_us (MetricData.timestamp s)
                 then Some s else Some b
             end
           else best)
        None samples.

(** Modelled from the spec: the event emitted on resolution, "same
    key, resolved=true, timestamp=now"; the source never sets
    [resolved]. *)
Definition resolve (a : Alert.t) (ts : datetime) : Alert.t :=
  {| Alert.resource_id := Alert.resource_id a;
     Alert.metric_name := Alert.metric_name a;
     Alert.threshold := Alert.threshold a;
     Alert.current_value := Alert.current_value a;
     Alert.severity := Alert.severity a;
     Alert.timestamp := ts;
     Alert.resolved := true |}.

Definition set_open (f : gmap key Alert.t -> gmap key Alert.t)
    (fr : Frame t) : Frame t :=
  {| self := {| open_alerts := f (open_alerts (self fr)) |}; world := world fr |}.

(** Modelled from the spec: the four state transitions of section 4.3
    for one rule, on the key [(resource_id, metric_name)]; the source
    has no evaluation code. *)
Definition evaluate_rule (resource_id : string) (samples : list MetricData.t)
    (rule : ThresholdRule.t) : M (Frame t) (list Alert.t) :=
  match most_recent (ThresholdRule.metric_name rule) samples with
  | None => mret []
  | Some sample =>
      let k := (resource_id, ThresholdRule.metric_name rule) in
      engine ← gets self;
      match open_alerts engine !! k,
            ThresholdRule.satisfied rule (MetricData.value sample) with
      | None, true =>
          a ← in_world (Alert.__init__ resource_id
                          (ThresholdRule.metric_name rule)
                          (ThresholdRule.threshold rule)
                          (MetricData.value sample)
                          (ThresholdRule.severity rule));
          _ ← modify (set_open (insert k a));
          mret [a]
      | Some _, true => mret []
      | Some a, false =>
          ts ← in_world now;
          _ ← modify (set_open (delete k));
          mret [resolve a ts]
      | None, false => mret []
      end
  end.

(** Modelled from the spec: [evaluate(resource_id, samples, rules)],
    the rules taken in order, the events of all rules returned; the
    source has no [evaluate]. *)
Fixpoint evaluate (resource_id : string) (samples : list MetricData.t)
    (rules : list ThresholdRule.t) : M (Frame t) (list Alert.t) :=
  match rules with
  | [] => mret []
  | rule :: rest =>
      ev ← evaluate_rule resource_id samples rule;
      evs ← evaluate resource_id samples rest;
      mret (ev ++ evs)%list
  end.

(** One [evaluate] call, and a run of calls on one engine with the
    events they emit, oldest first. *)
Record call : Type := mk_call {
  call_resource : string;
  call_samples : list MetricData.t;
  call_rules : list ThresholdRule.t
}.

Fixpoint run (calls : list call) : M (Frame t) (list Alert.t) :=
  match calls with
  | [] => mret []
  | c :: rest =>
      ev ← evaluate (call_resource c) (call_samples c) (call_rules c);
      evs ← run rest;
      mret (ev ++ evs)%list
  end.

Definition key_of (a : Alert.t) : key := (Alert.resource_id a, Alert.metric_name a).

(** The events of a log about key [k] with [resolved = b]. *)
Definition events (k : key) (b : bool) (log : list Alert.t) : list Alert.t :=
  filter (fun a => key_of a = k /\ Alert.resolved a = b) log.

(** Alerts raised for [k] and alerts resolved for [k]. *)
Definition raised (k : key) (log : list Alert.t) : nat := length (events k false log).
Definition cleared (k : key) (log : list Alert.t) : nat := length (events k true log).

(** The open-alert map agrees with the log: a key is in the map when
    exactly one more alert was raised than resolved for it, and out
    of it when as many were resolved as raised. *)
Definition consistent (e : t) (log : list Alert.t) : Prop :=
  forall k,
    match open_alerts e !! k with
    | Some a => key_of a = k /\ Alert.resolved a = false
                /\ raised k log = S (cleared k log)
    | None => raised k log = cleared k log
    end.

End AlertEngine.

(** ** Using a resource: any run of calls to its methods *)

Module Calls.

Inductive method : Type := call_collect_metrics | call_get_health_status.

(** What the caller sees of one call. *)
Inductive outcome : Type :=
  | Raised (e : exn)
  | Metrics (d : Dict)
  | Status (s : string).

Definition invoke (m : method) (fr : Frame CloudResource.t)
    : outcome * Frame CloudResource.t :=
  match m with
  | call_collect_metrics =>
      match CloudResource.collect_metrics fr with
      | (inl e, fr') => (Raised e, fr')
      | (inr d, fr') => (Metrics d, fr')
      end
  | call_get_health_status =>
      match CloudResource.get_health_status fr with
      | (inl e, fr') => (Raised e, fr')
      | (inr s, fr') => (Status s, fr')
      end
  end.

(** The calls of a list one after the other, the caller going on after
    an exception. *)
Fixpoint invoke_all (ms : list method) (fr : Frame CloudResource.t)
    : list outcome * Frame CloudResource.t :=
  match ms with
  | [] => ([], fr)
  | m :: rest =>
      let (o, fr1) := invoke m fr in
      let (os, fr2) := invoke_all rest fr1 in
      (o :: os, fr2)
  end.

(** What each method is seen to do on a resource of status [st]. *)
Definition expected (st : string) (m : method) (o : outcome) : Prop :=
  match m with
  | call_collect_metrics => exists msg, o = Raised (NotImplementedError msg)
  | call_get_health_status => o = Status st
  end.

End Calls.

(** ** Dictionaries as objects

    [{}] makes a new dict object each time it is evaluated; with the
    dict objects in a store, by identity, the constructor of
    [CloudResource] shows which objects a resource holds. *)

Module Store.

Definition new_dict : M (gmap positive Dict) positive := fun h =>
  let r := fresh (dom h) in (inr r, <[r := ∅]> h).

End Store.

Module CloudResourceObject.

Record t : Type := mk {
  resource_id : string;
  resource_type : string;
  region : string;
  metadata : positive;
  metrics : positive;
  status : string
}.

Definition __init__ (resource_id resource_type region : string)
    : M (gmap positive Dict) t :=
  md ← Store.new_dict;
  mt ← Store.new_dict;
  mret {| resource_id := resource_id; resource_type := resource_type;
          region := region; metadata := md; metrics := mt;
          status := "unknown" |}.

(** The resource with its dictionaries read from the store. *)
Definition read (h : gmap positive Dict) (r : t) : option CloudResource.t :=
  md ← h !! metadata r;
  mt ← h !! metrics r;
  Some (CloudResource.mk (resource_id r) (resource_type r) (region r)
          md mt (status r)).

End CloudResourceObject.

(** ** The width of a timestamp string *)

Definition offset_width (off : option Z) : nat :=
  match off with
  | None => 0
  | Some o =>
      if Z.abs o mod 60000000 =? 0 then 6
      else if Z.abs o mod 1000000 =? 0 then 9
      else 16
  end.

Definition timestamp_width (d : datetime) : nat :=
  19 + (if microsecond d =? 0 then 0 else 7) + offset_width (utcoffset d).

(** ** The order of naive timestamps

    Two naive [datetime] objects compare as the tuples
    [(year, month, day, hour, minute, second, microsecond)] do, the
    first difference deciding. *)

Definition lex (c1 c2 : comparison) : comparison :=
  match c1 with
  | Eq => c2
  | _ => c1
  end.

Definition cmp_naive (d1 d2 : datetime) : comparison :=
  lex (year d1 ?= year d2)
    (lex (month d1 ?= month d2)
      (lex (day d1 ?= day d2)
        (lex (hour d1 ?= hour d2)
          (lex (minute d1 ?= minute d2)
            (lex (second d1 ?= second d2)
              (microsecond d1 ?= microsecond d2)))))).

(** The morning of the same day as [noon], with microseconds. *)
Definition morning : datetime := mk_datetime 2024 1 15 9 30 0 125000 None I.

(** ** Concrete data for the examples *)

Definition noon : datetime := mk_datetime 2024 1 15 12 0 0 0 None I.

Definition leap_evening : datetime :=
  mk_datetime 2024 2 29 13 5 9 250 (Some (-19800000000)) I.

(** A clock that reads one second later at each reading. *)
Definition wall_clock (n : nat) : datetime :=
  default noon (make 2024 1 15 12 0 (Z.of_nat n mod 60) 0 None).

Definition wall_clock_naive (n : nat) : utcoffset (wall_clock n) = None.
Proof. unfold wall_clock, make. destruct (decide _); reflexivity. Defined.

Definition world0 : World :=
  {| clock := fun n => mk_reading (wall_clock n) (wall_clock_naive n); ticks := 7 |}.

(** Noon, one microsecond east of Greenwich. *)
Definition noon_plus_microsecond : datetime :=
  mk_datetime 2024 1 15 12 0 0 0 (Some 1) I.

(** Local mean time of Amsterdam, nineteen minutes and thirty-two
    seconds east of Greenwich. *)
Definition amsterdam_1900 : datetime :=
  mk_datetime 1900 6 1 8 0 0 0 (Some 1172000000) I.

(** The scenario of the specification: the rule "cpu > 90, critical"
    and the readings 50, 95, 92, 80 of resource vm-1 on four ticks. *)
Definition cpu_rule : ThresholdRule.t :=
  ThresholdRule.mk "cpu" ThresholdRule.cmp_gt (float_of_Z 90) "critical".

Definition cpu_sample (v : Z) : MetricData.t :=
  MetricData.mk "cpu" (float_of_Z v) "percent" noon.

Definition cpu_call (v : Z) : AlertEngine.call :=
  AlertEngine.mk_call "vm-1" [cpu_sample v] [cpu_rule].

Definition nan : pyfloat := S754_nan.
Definition inf : pyfloat := S754_infinity false.

(** The arguments the specification calls invalid for a sample. *)
Definition invalid_sample_args (name : string) (value : pyfloat) (unit : string) : Prop :=
  name = "" \/ unit = "" \/ float_finite value = false.

(** ** Round trip of [isoformat] *)

Section Roundtrip.

Lemma digit_val_char d : 0 <= d <= 9 -> digit_val (digit_char d) = Some d.
Proof.
  intros H.
  assert (d = 0 \/ d = 1 \/ d = 2 \/ d = 3 \/ d = 4 \/ d = 5 \/ d = 6
          \/ d = 7 \/ d = 8 \/ d = 9) as Hd by lia.
  repeat (destruct Hd as [-> | Hd]; [reflexivity |]).
  subst d; reflexivity.
Qed.

Lemma pow10_pos k : 0 < pow10 k.
Proof. unfold pow10. apply Z.pow_pos_nonneg; lia. Qed.

Lemma pow10_S k : pow10 (S k) = 10 * pow10 k.
Proof. unfold pow10. rewrite Nat2Z.inj_succ, Z.pow_succ_r; lia. Qed.

Lemma append_cons c s r : String c s +:+ r = String c (s +:+ r).
Proof. reflexivity. Qed.

Lemma append_nil r : "" +:+ r = r.
Proof. reflexivity. Qed.

Lemma append_nil_r s : s +:+ "" = s.
Proof.
  induction s as [| x s IH]; [reflexivity |].
  rewrite append_cons. f_equal. exact IH.
Qed.

Lemma append_assoc (a b c : string) : (a +:+ b) +:+ c = a +:+ b +:+ c.
Proof.
  induction a as [| x a IH]; [reflexivity |].
  rewrite !append_cons. f_equal. exact IH.
Qed.

Lemma parse_fixed_digits k : forall n acc rest,
  0 <= n < pow10 k ->
  parse_digits k acc (fixed_digits k n +:+ rest) = Some (acc * pow10 k + n, rest).
Proof.
  induction k as [| k IH]; intros n acc rest Hn.
  - unfold pow10 in *. cbn in *. f_equal. f_equal. lia.
  - rewrite pow10_S in Hn. pose proof (pow10_pos k) as Hp.
    assert (0 <= n / pow10 k <= 9) as Hq.
    { split; [apply Z.div_pos; lia |].
      assert (n / pow10 k < 10); [apply Z.div_lt_upper_bound; lia | lia]. }
    cbn [fixed_digits]. rewrite append_cons. cbn [parse_digits].
    rewrite (digit_val_char _ Hq).
    rewrite IH by (apply Z.mod_pos_bound; lia).
    rewrite pow10_S. f_equal. f_equal.
    pose proof (Z.div_mod n (pow10 k)). lia.
Qed.

Lemma fmt_d_fixed k n : 0 <= n < pow10 k -> fmt_d k n = fixed_digits k n.
Proof.
  intros Hn. unfold fmt_d, fmt_nonneg.
  destruct (Z.ltb_spec n 0); [lia |].
  rewrite Z.div_small, Z.mod_small by lia. reflexivity.
Qed.

Lemma parse_fmt_d k n rest :
  0 <= n < pow10 k -> parse_digits k 0 (fmt_d k n +:+ rest) = Some (n, rest).
Proof.
  intros Hn. rewrite fmt_d_fixed, parse_fixed_digits by lia. reflexivity.
Qed.

Lemma parse_fraction_fmt us rest :
  0 <= us <= 999999 -> no_dot rest ->
  parse_fraction ((if us =? 0 then "" else "." +:+ fmt_d 6 us) +:+ rest)
  = Some (us, rest).
Proof.
  intros Hus Hrest. destruct (Z.eqb_spec us 0) as [-> | Hne].
  - rewrite append_nil. unfold parse_fraction.
    destruct rest as [| c r]; [reflexivity |].
    destruct c as [[] [] [] [] [] [] [] []]; try reflexivity.
    destruct Hrest.
  - rewrite append_assoc, append_cons, append_nil.
    cbn [parse_fraction]. apply parse_fmt_d. unfold pow10. simpl. lia.
Qed.

Lemma no_dot_format_offset off : no_dot (format_offset off).
Proof.
  destruct off as [o |]; [| exact I].
  unfold format_offset. destruct (o <? 0); rewrite append_cons; exact I.
Qed.

Lemma parse_offset_abs (strict : bool) (c : ascii) (sign a : Z) :
  (if Ascii.eqb c "+" then Some 1
   else if Ascii.eqb c "-" then Some (-1) else None) = Some sign ->
  0 <= a < day_us ->
  (strict = true -> a mod 60000000 = 0) ->
  parse_offset strict (String c (format_offset_abs a)) = Some (Some (sign * a)).
Proof.
  unfold day_us. intros Hc Ha Hstrict. unfold format_offset_abs.
  set (hh := a / 3600000000).
  set (r := a mod 3600000000).
  set (mm := r / 60000000).
  set (ss := r mod 60000000).
  assert (0 <= r < 3600000000) as Hr by (apply Z.mod_pos_bound; lia).
  assert (0 <= ss < 60000000) as Hss by (apply Z.mod_pos_bound; lia).
  assert (0 <= hh < 24) as Hhh.
  { split; [apply Z.div_pos; lia | apply Z.div_lt_upper_bound; lia]. }
  assert (0 <= mm < 60) as Hmm.
  { split; [apply Z.div_pos; lia | apply Z.div_lt_upper_bound; lia]. }
  assert (0 <= ss / 1000000 < 60) as Hsec.
  { split; [apply Z.div_pos; lia | apply Z.div_lt_upper_bound; lia]. }
  assert (0 <= ss mod 1000000 < 1000000) as Hus by (apply Z.mod_pos_bound; lia).
  assert (a = ((hh * 60 + mm) * 60 + ss / 1000000) * 1000000 + ss mod 1000000) as Hsum.
  { pose proof (Z.div_mod a 3600000000). pose proof (Z.div_mod r 60000000).
    pose proof (Z.div_mod ss 1000000). lia. }
  assert (between 0 mm 59 = true) as Hbm
    by (unfold between; apply andb_true_intro; split; apply Z.leb_le; lia).
  assert (between 0 (ss / 1000000) 59 = true) as Hbs
    by (unfold between; apply andb_true_intro; split; apply Z.leb_le; lia).
  cbn [parse_offset]. rewrite Hc. cbn [mbind option_bind].
  rewrite parse_fmt_d by (unfold pow10; simpl; lia).
  cbn [mbind option_bind expect]. rewrite append_cons, append_nil.
  cbn [expect Ascii.eqb Bool.eqb mbind option_bind].
  rewrite parse_fmt_d by (unfold pow10; simpl; lia).
  cbn [mbind option_bind].
  destruct (Z.eqb_spec ss 0) as [Hz | Hnz].
  - cbn [mbind option_bind]. rewrite Hbm. cbn [between Z.leb Z.compare andb].
    assert (ss / 1000000 = 0) as Hd by (rewrite Hz; reflexivity).
    assert (ss mod 1000000 = 0) as Hm by (rewrite Hz; reflexivity).
    do 3 f_equal. lia.
  - assert (strict = false) as ->.
    { destruct strict; [| reflexivity]. exfalso. apply Hnz.
      specialize (Hstrict eq_refl).
      pose proof (Z.div_mod a 3600000000). pose proof (Z.div_mod r 60000000).
      pose proof (Z.div_mod a 60000000). lia. }
    rewrite append_cons, append_nil. cbn [Ascii.eqb Bool.eqb negb andb].
    rewrite parse_fmt_d by (unfold pow10; simpl; lia).
    cbn [mbind option_bind].
    rewrite <- (append_nil_r (if ss mod 1000000 =? 0 then _ else _)).
    rewrite parse_fraction_fmt by (lia || exact I).
    cbn [mbind option_bind]. rewrite Hbm, Hbs. cbn [andb].
    do 3 f_equal. lia.
Qed.

Lemma parse_offset_format strict off :
  Is_true (check_utcoffset off) ->
  (strict = true -> whole_minutes off) ->
  parse_offset strict (format_offset off) = Some off.
Proof.
  destruct off as [o |]; [| reflexivity].
  unfold check_utcoffset, whole_minutes.
  rewrite andb_True, !Is_true_true, !Z.ltb_lt. intros [Hlo Hhi] Hstrict.
  unfold format_offset. destruct (Z.ltb_spec o 0) as [Hneg | Hpos].
  - rewrite append_cons, append_nil.
    rewrite (parse_offset_abs strict "-" (-1)); [do 2 f_equal; lia | reflexivity | lia |].
    intros Hs. specialize (Hstrict Hs).
    apply Z.mod_divide in Hstrict; [| lia]. apply Z.mod_divide; [lia |].
    apply Z.divide_opp_r. exact Hstrict.
  - rewrite append_cons, append_nil.
    rewrite (parse_offset_abs strict "+" 1); [do 2 f_equal; lia | reflexivity | lia |].
    exact Hstrict.
Qed.

Lemma between_spec lo x hi : Is_true (between lo x hi) <-> lo <= x <= hi.
Proof. unfold between. rewrite andb_True, !Is_true_true, !Z.leb_le. tauto. Qed.

Lemma days_in_month_le y m : days_in_month y m <= 31.
Proof.
  unfold days_in_month.
  repeat match goal with |- context [if ?b then _ else _] => destruct b end; lia.
Qed.

Lemma check_fields_bounds y m d h mi s us off :
  Is_true (check_fields y m d h mi s us off) ->
  (1 <= y <= 9999 /\ 1 <= m <= 12 /\ 1 <= d <= 31) /\
  (0 <= h <= 23 /\ 0 <= mi <= 59 /\ 0 <= s <= 59 /\ 0 <= us <= 999999) /\
  Is_true (check_utcoffset off).
Proof.
  unfold check_fields, check_date_fields, check_time_fields.
  rewrite !andb_True, !between_spec.
  pose proof (days_in_month_le y m). intuition lia.
Qed.

Lemma make_fields (d : datetime) :
  make (year d) (month d) (day d) (hour d) (minute d) (second d)
       (microsecond d) (utcoffset d) = Some d.
Proof.
  destruct d as [y m dd h mi s us off ok]. cbn [year month day hour minute
    second microsecond utcoffset]. unfold make.
  destruct (decide _) as [ok' | bad]; [| contradiction].
  f_equal. f_equal. apply proof_irrel.
Qed.

Ltac read_digits :=
  rewrite parse_fmt_d by (unfold pow10; simpl; lia); cbn [mbind option_bind].
Ltac read_sep :=
  rewrite append_cons, append_nil;
  cbn [expect Ascii.eqb Bool.eqb mbind option_bind].

(** The date and the time are always read back; what is left is the
    offset. *)
Lemma parse_datetime_isoformat_offset strict (d : datetime) :
  parse_datetime strict (isoformat d)
  = off ← parse_offset strict (format_offset (utcoffset d));
    make (year d) (month d) (day d) (hour d) (minute d) (second d)
         (microsecond d) off.
Proof.
  pose proof (check_fields_bounds _ _ _ _ _ _ _ _ (fields_ok d))
    as ((Hy & Hm & Hd) & (Hh & Hmi & Hs & Hus) & Hoff).
  unfold isoformat, format_time. rewrite !append_assoc.
  unfold parse_datetime.
  read_digits. read_sep. read_digits. read_sep. read_digits. read_sep.
  read_digits. read_sep. read_digits. read_sep. read_digits.
  rewrite parse_fraction_fmt by (lia || apply no_dot_format_offset).
  cbn [mbind option_bind]. reflexivity.
Qed.

Lemma parse_datetime_isoformat strict (d : datetime) :
  (strict = true -> whole_minutes (utcoffset d)) ->
  parse_datetime strict (isoformat d) = Some d.
Proof.
  intros Hstrict.
  pose proof (check_fields_bounds _ _ _ _ _ _ _ _ (fields_ok d))
    as (_ & _ & Hoff).
  rewrite parse_datetime_isoformat_offset.
  rewrite parse_offset_format by assumption.
  cbn [mbind option_bind]. apply make_fields.
Qed.

(** An offset with seconds is refused by the strict reader. *)
Lemma parse_offset_strict_abs (c : ascii) (sign a : Z) :
  (if Ascii.eqb c "+" then Some 1
   else if Ascii.eqb c "-" then Some (-1) else None) = Some sign ->
  0 <= a < day_us ->
  a mod 60000000 <> 0 ->
  parse_offset true (String c (format_offset_abs a)) = None.
Proof.
  unfold day_us. intros Hc Ha Hsec. unfold format_offset_abs.
  set (hh := a / 3600000000).
  set (r := a mod 3600000000).
  set (mm := r / 60000000).
  set (ss := r mod 60000000).
  assert (0 <= r < 3600000000) as Hr by (apply Z.mod_pos_bound; lia).
  assert (0 <= hh < 24) as Hhh.
  { split; [apply Z.div_pos; lia | apply Z.div_lt_upper_bound; lia]. }
  assert (0 <= mm < 60) as Hmm.
  { split; [apply Z.div_pos; lia | apply Z.div_lt_upper_bound; lia]. }
  assert (ss <> 0) as Hss.
  { pose proof (Z.div_mod a 3600000000). pose proof (Z.div_mod r 60000000).
    pose proof (Z.div_mod a 60000000). pose proof (Z.mod_pos_bound a 60000000).
    pose proof (Z.mod_pos_bound r 60000000). lia. }
  cbn [parse_offset]. rewrite Hc. cbn [mbind option_bind].
  rewrite parse_fmt_d by (unfold pow10; simpl; lia).
  cbn [mbind option_bind expect]. rewrite append_cons, append_nil.
  cbn [expect Ascii.eqb Bool.eqb mbind option_bind].
  rewrite parse_fmt_d by (unfold pow10; simpl; lia).
  cbn [mbind option_bind].
  destruct (Z.eqb_spec ss 0) as [Hz | _]; [contradiction |].
  rewrite append_cons, append_nil. reflexivity.
Qed.

Lemma parse_offset_strict_seconds off :
  Is_true (check_utcoffset off) -> ~ whole_minutes off ->
  parse_offset true (format_offset off) = None.
Proof.
  destruct off as [o |]; [| intros _ H; destruct (H I)].
  unfold check_utcoffset, whole_minutes.
  rewrite andb_True, !Is_true_true, !Z.ltb_lt. intros [Hlo Hhi] Hsec.
  unfold format_offset. destruct (Z.ltb_spec o 0) as [Hneg | Hpos].
  - rewrite append_cons, append_nil.
    apply (parse_offset_strict_abs "-" (-1)); [reflexivity | lia |].
    intros Hz. apply Hsec. apply Z.mod_divide in Hz; [| lia].
    apply Z.mod_divide; [lia |]. apply Z.divide_opp_r in Hz.
    rewrite Z.opp_involutive in Hz. exact Hz.
  - rewrite append_cons, append_nil.
    apply (parse_offset_strict_abs "+" 1); [reflexivity | lia | exact Hsec].
Qed.

(** Of the strings [isoformat] writes, the ISO 8601 ones are those of
    the naive timestamps and of the offsets in whole minutes. *)
Lemma is_iso8601_isoformat (d : datetime) :
  is_iso8601 (isoformat d) = bool_decide (whole_minutes (utcoffset d)).
Proof.
  pose proof (check_fields_bounds _ _ _ _ _ _ _ _ (fields_ok d))
    as (_ & _ & Hoff).
  unfold is_iso8601. destruct (decide (whole_minutes (utcoffset d))) as [Hw | Hw].
  - rewrite (bool_decide_eq_true_2 _ Hw). apply bool_decide_eq_true.
    rewrite parse_datetime_isoformat by (intros _; exact Hw). eauto.
  - rewrite (bool_decide_eq_false_2 _ Hw). apply bool_decide_eq_false.
    rewrite parse_datetime_isoformat_offset.
    rewrite parse_offset_strict_seconds by assumption.
    intros [? ?]. discriminate.
Qed.

Lemma library_offset_read_back off :
  offset_read_back off -> library_offset off = off.
Proof.
  destruct off as [o |]; [| reflexivity]. cbn [offset_read_back library_offset].
  intros [-> | Hbig]; [reflexivity |].
  destruct (Z.eqb_spec (Z.quot o 1000000) 0) as [Hq | _]; [| reflexivity].
  apply Z.quot_small_iff in Hq; lia.
Qed.

Lemma check_library_offset off :
  Is_true (check_utcoffset off) -> Is_true (check_utcoffset (library_offset off)).
Proof.
  destruct off as [o |]; [| trivial]. cbn [library_offset].
  destruct (Z.quot o 1000000 =? 0); [intros _; exact I | trivial].
Qed.

(** What [fromisoformat] makes of a string [isoformat] wrote: the same
    date and time, and the offset as the library builds it. *)
Lemma fromisoformat_isoformat_civil (d : datetime) :
  exists d',
    fromisoformat (isoformat d) = Some d'
    /\ civil d' = civil d
    /\ utcoffset d' = library_offset (utcoffset d).
Proof.
  unfold fromisoformat.
  rewrite parse_datetime_isoformat by discriminate. cbn [mbind option_bind].
  unfold make. destruct (decide _) as [ok | bad].
  - eexists. split; [reflexivity |]. split; reflexivity.
  - exfalso. apply bad. pose proof (fields_ok d) as Hok.
    unfold check_fields in *. rewrite !andb_True in *.
    destruct Hok as [[Hdate Htime] Hoff].
    repeat split; try assumption. apply check_library_offset. exact Hoff.
Qed.

Lemma fromisoformat_isoformat (d : datetime) :
  offset_read_back (utcoffset d) -> fromisoformat (isoformat d) = Some d.
Proof.
  intros Hoff. unfold fromisoformat.
  rewrite parse_datetime_isoformat by discriminate. cbn [mbind option_bind].
  rewrite library_offset_read_back by exact Hoff. apply make_fields.
Qed.

Lemma fromisoformat_isoformat_naive (d : datetime) :
  utcoffset d = None -> fromisoformat (isoformat d) = Some d.
Proof. intros Hn. apply fromisoformat_isoformat. rewrite Hn. exact I. Qed.

End Roundtrip.


Example isoformat_leap_evening :
  isoformat leap_evening = "2024-02-29T13:05:09.000250-05:30".
Proof. reflexivity. Qed.

Example isoformat_noon : isoformat noon = "2024-01-15T12:00:00".
Proof. reflexivity. Qed.

Example not_iso8601 :
  is_iso8601 "2024-02-30T00:00:00" = false /\ is_iso8601 "yesterday" = false
  /\ is_iso8601 "2023-02-28T00:00:00.+05:30" = false.
Proof. repeat split; vm_compute; reflexivity. Qed.

Example iso8601_leap_evening :
  is_iso8601 "2024-02-29T13:05:09.000250-05:30" = true.
Proof. vm_compute. reflexivity. Qed.

Example isoformat_amsterdam :
  isoformat amsterdam_1900 = "1900-06-01T08:00:00+00:19:32"
  /\ is_iso8601 (isoformat amsterdam_1900) = false
  /\ fromisoformat (isoformat amsterdam_1900) = Some amsterdam_1900.
Proof. repeat split; vm_compute; reflexivity. Qed.

(** One microsecond of offset is written and comes back as UTC. *)
Example isoformat_noon_plus_microsecond :
  isoformat noon_plus_microsecond = "2024-01-15T12:00:00+00:00:00.000001"
  /\ utcoffset <$> fromisoformat (isoformat noon_plus_microsecond) = Some (Some 0)
  /\ utcoffset <$> parse_datetime false (isoformat noon_plus_microsecond)
     = Some (Some 1).
Proof. repeat split; vm_compute; reflexivity. Qed.

(** ** [MetricData] *)

Section MetricDataFacts.

Variables (name unit : string) (value : pyfloat).

Lemma init_supplied ts w :
  MetricData.__init__ name value unit (Some ts) w
  = (inr (MetricData.mk name value unit ts), w).
Proof. reflexivity. Qed.

Lemma init_default w :
  MetricData.__init__ name value unit None w
  = (inr (MetricData.mk name value unit (current_time w)),
     {| clock := clock w; ticks := S (ticks w) |}).
Proof. reflexivity. Qed.

Lemma to_dict_run (fr : Frame MetricData.t) :
  MetricData.to_dict fr
  = (inr (<["timestamp" := PStr (isoformat (MetricData.timestamp (self fr)))]>
           (<["unit" := PStr (MetricData.unit (self fr))]>
             (<["value" := PFloat (MetricData.value (self fr))]>
               (<["name" := PStr (MetricData.name (self fr))]> ∅)))), fr).
Proof. reflexivity. Qed.

End MetricDataFacts.

(** C1 (as stated, refuted): an empty name, an empty unit and a NaN
    value are invalid arguments, and constructing a sample from them
    raises nothing: a sample comes back. *)
Lemma C1_counterexample :
  invalid_sample_args "" nan ""
  /\ ~ raises (fst (MetricData.__init__ "" nan "" None world0))
  /\ fst (MetricData.__init__ "" nan "" None world0)
     = inr (MetricData.mk "" nan "" (current_time world0)).
Proof.
  split; [left; reflexivity |]. split; [| reflexivity].
  intros [e He]. discriminate He.
Qed.

Example init_accepts_infinity :
  fst (MetricData.__init__ "cpu" inf "percent" (Some noon) world0)
  = inr (MetricData.mk "cpu" inf "percent" noon).
Proof. reflexivity. Qed.

(** C1 (amended): constructing a sample never fails; whatever the name,
    the value (NaN and the infinities included) and the unit, with or
    without a timestamp, a sample holding exactly those arguments is
    returned. *)
Theorem C1_init_total name value unit ts w :
  exists m w',
    MetricData.__init__ name value unit ts w = (inr m, w')
    /\ MetricData.name m = name
    /\ MetricData.value m = value
    /\ MetricData.unit m = unit.
Proof.
  destruct ts as [ts |].
  - rewrite init_supplied. eauto 10.
  - rewrite init_default. eauto 10.
Qed.

(** C6: without a timestamp argument the sample's timestamp is the
    clock reading taken by the constructor; a supplied timestamp is
    stored as it is. *)
Theorem C6_timestamp_default name value unit w :
  (exists m w',
     MetricData.__init__ name value unit None w = (inr m, w')
     /\ MetricData.timestamp m = current_time w)
  /\ (forall ts, exists m w',
        MetricData.__init__ name value unit (Some ts) w = (inr m, w')
        /\ MetricData.timestamp m = ts).
Proof.
  split.
  - rewrite init_default. eauto.
  - intros ts. rewrite init_supplied. eauto.
Qed.

(** C7: serialising a sample returns with the sample as it was: the
    whole state, and so each of the four fields, is unchanged. *)
Theorem C7_to_dict_frame (fr : Frame MetricData.t) :
  snd (MetricData.to_dict fr) = fr
  /\ MetricData.name (self (snd (MetricData.to_dict fr))) = MetricData.name (self fr)
  /\ MetricData.value (self (snd (MetricData.to_dict fr))) = MetricData.value (self fr)
  /\ MetricData.unit (self (snd (MetricData.to_dict fr))) = MetricData.unit (self fr)
  /\ MetricData.timestamp (self (snd (MetricData.to_dict fr)))
     = MetricData.timestamp (self fr).
Proof. rewrite to_dict_run. repeat split. Qed.

(** ** [Alert] *)

Section AlertFacts.

Lemma alert_init_run rid metric thr cur sev w :
  Alert.__init__ rid metric thr cur sev w
  = (inr (Alert.mk rid metric thr cur sev (current_time w) false),
     {| clock := clock w; ticks := S (ticks w) |}).
Proof. reflexivity. Qed.

Lemma alert_to_dict_run (fr : Frame Alert.t) :
  exists d, Alert.to_dict fr = (inr d, fr)
    /\ d = <["resolved" := PBool (Alert.resolved (self fr))]>
            (<["timestamp" := PStr (isoformat (Alert.timestamp (self fr)))]>
              (<["severity" := PStr (Alert.severity (self fr))]>
                (<["current_value" := PFloat (Alert.current_value (self fr))]>
                  (<["threshold" := PFloat (Alert.threshold (self fr))]>
                    (<["metric_name" := PStr (Alert.metric_name (self fr))]>
                      (<["resource_id" := PStr (Alert.resource_id (self fr))]> ∅)))))).
Proof. eexists. split; reflexivity. Qed.

End AlertFacts.

Lemma current_time_naive (w : World) : utcoffset (current_time w) = None.
Proof. apply reading_naive. Qed.

Lemma is_iso8601_naive (d : datetime) :
  utcoffset d = None -> is_iso8601 (isoformat d) = true.
Proof.
  intros Hn. rewrite is_iso8601_isoformat, Hn. reflexivity.
Qed.

(** C2 (as stated, refuted): a sample can be given a timestamp whose
    UTC offset is not a whole number of minutes; the timestamp string
    of its dictionary then carries seconds in the offset and is not an
    ISO 8601 string. *)
Lemma C2_counterexample :
  exists m d,
    MetricData.__init__ "cpu" (float_of_Z 95) "percent" (Some amsterdam_1900) world0
    = (inr m, world0)
    /\ fst (MetricData.to_dict (mk_Frame m world0)) = inr d
    /\ d !! "timestamp" = Some (PStr "1900-06-01T08:00:00+00:19:32")
    /\ is_iso8601 "1900-06-01T08:00:00+00:19:32" = false.
Proof.
  do 2 eexists. split; [reflexivity |]. rewrite to_dict_run.
  split; [reflexivity |]. split; [apply lookup_insert_eq |].
  vm_compute. reflexivity.
Qed.

(** C2 (amended): the dictionary of a sample has exactly the keys
    name, value, unit and timestamp, the dictionary of an alert exactly
    the keys resource_id, metric_name, threshold, current_value,
    severity, timestamp and resolved, the resolved entry being a bool;
    in both the timestamp entry is the string [isoformat] writes, which
    is an ISO 8601 string exactly when the timestamp is naive or has a
    UTC offset in whole minutes.  It is one for every alert as its
    constructor builds it and for every sample constructed without a
    timestamp. *)
Theorem C2_to_dict_shape :
  (forall fr : Frame MetricData.t, exists d s,
      MetricData.to_dict fr = (inr d, fr)
      /\ dom d =@{gset string} {[ "name"; "value"; "unit"; "timestamp" ]}
      /\ d !! "timestamp" = Some (PStr s)
      /\ s = isoformat (MetricData.timestamp (self fr))
      /\ is_iso8601 s
         = bool_decide (whole_minutes (utcoffset (MetricData.timestamp (self fr)))))
  /\ (forall fr : Frame Alert.t, exists d s b,
        Alert.to_dict fr = (inr d, fr)
        /\ dom d =@{gset string}
             {[ "resource_id"; "metric_name"; "threshold"; "current_value";
                "severity"; "timestamp"; "resolved" ]}
        /\ d !! "timestamp" = Some (PStr s)
        /\ s = isoformat (Alert.timestamp (self fr))
        /\ is_iso8601 s
           = bool_decide (whole_minutes (utcoffset (Alert.timestamp (self fr))))
        /\ d !! "resolved" = Some (PBool b))
  /\ (forall rid metric thr cur sev w, exists a w' d s,
        Alert.__init__ rid metric thr cur sev w = (inr a, w')
        /\ fst (Alert.to_dict (mk_Frame a w')) = inr d
        /\ d !! "timestamp" = Some (PStr s)
        /\ is_iso8601 s = true)
  /\ (forall name value unit w, exists m w' d s,
        MetricData.__init__ name value unit None w = (inr m, w')
        /\ fst (MetricData.to_dict (mk_Frame m w')) = inr d
        /\ d !! "timestamp" = Some (PStr s)
        /\ is_iso8601 s = true).
Proof.
  split; [| split; [| split]].
  - intros fr. rewrite to_dict_run. do 2 eexists. split; [reflexivity |].
    split; [rewrite !dom_insert_L, dom_empty_L; set_solver |].
    split; [apply lookup_insert_eq |]. split; [reflexivity |].
    apply is_iso8601_isoformat.
  - intros fr. destruct (alert_to_dict_run fr) as (d & -> & ->).
    do 3 eexists. split; [reflexivity |].
    split; [rewrite !dom_insert_L, dom_empty_L; set_solver |].
    split; [rewrite lookup_insert_ne by discriminate; apply lookup_insert_eq |].
    split; [reflexivity |]. split; [apply is_iso8601_isoformat |].
    apply lookup_insert_eq.
  - intros rid metric thr cur sev w. rewrite alert_init_run.
    match goal with
    | |- context [(inr ?a, ?w')] =>
        destruct (alert_to_dict_run (mk_Frame a w')) as (d & Hrun & ->)
    end.
    do 4 eexists. split; [reflexivity |]. rewrite Hrun.
    split; [reflexivity |].
    split; [rewrite lookup_insert_ne by discriminate; apply lookup_insert_eq |].
    apply is_iso8601_naive, current_time_naive.
  - intros name value unit w. rewrite init_default.
    do 4 eexists. split; [reflexivity |]. rewrite to_dict_run.
    split; [reflexivity |]. split; [apply lookup_insert_eq |].
    apply is_iso8601_naive, current_time_naive.
Qed.

(** C3 (as stated, refuted): a sample constructed with a timestamp one
    microsecond east of Greenwich serialises to a timestamp string that
    [fromisoformat] reads as UTC: what is parsed is not the timestamp
    the sample was given. *)
Lemma C3_counterexample :
  exists m d,
    MetricData.__init__ "cpu" (float_of_Z 95) "percent"
      (Some noon_plus_microsecond) world0 = (inr m, world0)
    /\ fst (MetricData.to_dict (mk_Frame m world0)) = inr d
    /\ d !! "timestamp" = Some (PStr "2024-01-15T12:00:00+00:00:00.000001")
    /\ fromisoformat "2024-01-15T12:00:00+00:00:00.000001"
       <> Some noon_plus_microsecond
    /\ utcoffset <$> fromisoformat "2024-01-15T12:00:00+00:00:00.000001"
       = Some (Some 0).
Proof.
  do 2 eexists. split; [reflexivity |]. rewrite to_dict_run.
  split; [reflexivity |]. split; [apply lookup_insert_eq |].
  split; [| vm_compute; reflexivity].
  intros H. apply (f_equal (fmap utcoffset)) in H.
  vm_compute in H. discriminate H.
Qed.

(** C3 (amended): a sample constructed with a timestamp that is naive,
    or whose UTC offset is zero or at least one second either way,
    serialises to a dictionary whose timestamp string parses back to
    that very timestamp (its date, time and offset), for every name,
    value and unit. *)
Theorem C3_timestamp_roundtrip name value unit (ts : datetime) w :
  offset_read_back (utcoffset ts) ->
  exists m w' d s,
    MetricData.__init__ name value unit (Some ts) w = (inr m, w')
    /\ fst (MetricData.to_dict (mk_Frame m w')) = inr d
    /\ d !! "timestamp" = Some (PStr s)
    /\ fromisoformat s = Some ts.
Proof.
  intros Hoff.
  rewrite init_supplied. do 4 eexists. split; [reflexivity |].
  rewrite to_dict_run. split; [reflexivity |].
  split; [apply lookup_insert_eq |].
  apply fromisoformat_isoformat. exact Hoff.
Qed.

Lemma C3_timestamp_roundtrip_witness :
  offset_read_back (utcoffset leap_evening)
  /\ exists m w' d s,
       MetricData.__init__ "cpu" nan "percent" (Some leap_evening) world0
       = (inr m, w')
       /\ fst (MetricData.to_dict (mk_Frame m w')) = inr d
       /\ d !! "timestamp" = Some (PStr s)
       /\ fromisoformat s = Some leap_evening.
Proof.
  split; [right; simpl; lia |].
  apply (C3_timestamp_roundtrip "cpu" nan "percent" leap_evening world0).
  right. simpl. lia.
Defined.

(** C10: a new alert is open and stamped with the clock reading taken
    by its constructor, whatever the arguments. *)
Theorem C10_alert_fresh rid metric thr cur sev w :
  exists a w',
    Alert.__init__ rid metric thr cur sev w = (inr a, w')
    /\ Alert.resolved a = false
    /\ Alert.timestamp a = current_time w.
Proof. rewrite alert_init_run. eauto. Qed.

(** ** [CloudResource] *)

(** C5: the base class's [collect_metrics] raises
    [NotImplementedError] on every receiver and in every world, and
    returns no value. *)
Theorem C5_collect_metrics_raises (fr : Frame CloudResource.t) :
  (exists msg, fst (CloudResource.collect_metrics fr) = inl (NotImplementedError msg))
  /\ (forall d, fst (CloudResource.collect_metrics fr) <> inr d).
Proof.
  split.
  - eexists. reflexivity.
  - intros d. discriminate.
Qed.

(** C8: [get_health_status] returns the status the resource holds and
    leaves the resource and the world as they were. *)
Theorem C8_get_health_status (fr : Frame CloudResource.t) :
  CloudResource.get_health_status fr = (inr (CloudResource.status (self fr)), fr).
Proof. reflexivity. Qed.

(** C9: a new resource has status "unknown" and empty metadata and
    metrics, whatever the identifier, type and region. *)
Theorem C9_resource_fresh rid rtype region w :
  exists r,
    CloudResource.__init__ rid rtype region w = (inr r, w)
    /\ CloudResource.status r = "unknown"
    /\ CloudResource.metadata r = ∅
    /\ CloudResource.metrics r = ∅.
Proof. eexists. repeat split. Qed.

(** ** The alert engine of the specification *)

Section AlertEngineFacts.

Import AlertEngine.

Lemma bind_returns {S A B} (m : M S A) (f : A -> M S B) s a s' :
  m s = (inr a, s') -> (m ≫= f) s = f a s'.
Proof. intros H. unfold mbind, M_bind. rewrite H. reflexivity. Qed.

Lemma count_snoc k b log a :
  length (events k b (log ++ [a])%list)
  = (length (events k b log)
     + (if decide (key_of a = k /\ Alert.resolved a = b) then 1 else 0))%nat.
Proof.
  unfold events. rewrite filter_app, length_app. f_equal.
  rewrite filter_cons, filter_nil. destruct (decide _); reflexivity.
Qed.

Lemma count_snoc_other k b log a :
  key_of a <> k ->
  length (events k b (log ++ [a])%list) = length (events k b log).
Proof.
  intros Hk. rewrite count_snoc. destruct (decide _) as [[? _] |]; [done | lia].
Qed.

Lemma key_of_resolve a ts : key_of (resolve a ts) = key_of a.
Proof. reflexivity. Qed.

(** Raising an alert for a key that has none open. *)
Lemma consistent_raise e log k a :
  consistent e log -> open_alerts e !! k = None ->
  key_of a = k -> Alert.resolved a = false ->
  consistent {| open_alerts := <[k := a]> (open_alerts e) |} (log ++ [a])%list.
Proof.
  intros Hinv Hnone Hk Hopen k'. specialize (Hinv k'). cbn [open_alerts].
  unfold raised, cleared in *.
  destruct (decide (k = k')) as [<- | Hne].
  - rewrite lookup_insert_eq. rewrite Hnone in Hinv.
    rewrite !count_snoc, Hopen.
    repeat destruct (decide _); intuition (try discriminate; try lia).
  - rewrite lookup_insert_ne by done.
    rewrite !count_snoc_other by congruence. exact Hinv.
Qed.

(** Resolving the open alert of a key. *)
Lemma consistent_resolve e log k a ts :
  consistent e log -> open_alerts e !! k = Some a ->
  consistent {| open_alerts := delete k (open_alerts e) |}
             (log ++ [resolve a ts])%list.
Proof.
  intros Hinv Hsome k'. pose proof (Hinv k) as Hk. specialize (Hinv k').
  rewrite Hsome in Hk. destruct Hk as (Hkey & _ & Hcount).
  cbn [open_alerts]. unfold raised, cleared in *.
  destruct (decide (k = k')) as [<- | Hne].
  - rewrite lookup_delete_eq. rewrite !count_snoc, key_of_resolve.
    cbn [resolve Alert.resolved].
    repeat destruct (decide _); intuition (try discriminate; try lia).
  - rewrite lookup_delete_ne by done.
    rewrite !count_snoc_other by (rewrite key_of_resolve; congruence).
    exact Hinv.
Qed.

Lemma evaluate_rule_consistent rid samples rule (fr : Frame t) log :
  consistent (self fr) log ->
  exists ev fr',
    evaluate_rule rid samples rule fr = (inr ev, fr')
    /\ consistent (self fr') (log ++ ev)%list.
Proof.
  intros Hinv. unfold evaluate_rule.
  destruct (most_recent _ samples) as [sample |];
    [| exists [], fr; rewrite app_nil_r; split; [reflexivity | exact Hinv]].
  erewrite bind_returns by reflexivity.
  destruct (open_alerts (self fr) !! _) as [a |] eqn:Hlook;
    destruct (ThresholdRule.satisfied rule _).
  - exists [], fr. rewrite app_nil_r. split; [reflexivity | exact Hinv].
  - eexists _, _. split; [reflexivity |].
    destruct fr as [[open] w]. unfold set_open. cbn [self world open_alerts] in *.
    apply (consistent_resolve {| open_alerts := open |}); assumption.
  - eexists _, _. split; [reflexivity |].
    destruct fr as [[open] w]. unfold set_open. cbn [self world open_alerts] in *.
    apply (consistent_raise {| open_alerts := open |});
      [assumption | assumption | reflexivity | reflexivity].
  - exists [], fr. rewrite app_nil_r. split; [reflexivity | exact Hinv].
Qed.

Lemma evaluate_consistent rid samples rules : forall (fr : Frame t) log,
  consistent (self fr) log ->
  exists ev fr',
    evaluate rid samples rules fr = (inr ev, fr')
    /\ consistent (self fr') (log ++ ev)%list.
Proof.
  induction rules as [| rule rest IH]; intros fr log Hinv.
  - exists [], fr. rewrite app_nil_r. split; [reflexivity | exact Hinv].
  - destruct (evaluate_rule_consistent rid samples rule fr log Hinv)
      as (ev & fr1 & Hrun1 & Hinv1).
    destruct (IH fr1 _ Hinv1) as (evs & fr2 & Hrun2 & Hinv2).
    exists (ev ++ evs)%list, fr2. split.
    + cbn [evaluate]. erewrite bind_returns by exact Hrun1.
      erewrite bind_returns by exact Hrun2. reflexivity.
    + rewrite app_assoc. exact Hinv2.
Qed.

Lemma run_consistent calls : forall (fr : Frame t) log,
  consistent (self fr) log ->
  exists ev fr',
    run calls fr = (inr ev, fr')
    /\ consistent (self fr') (log ++ ev)%list.
Proof.
  induction calls as [| c rest IH]; intros fr log Hinv.
  - exists [], fr. rewrite app_nil_r. split; [reflexivity | exact Hinv].
  - destruct (evaluate_consistent (call_resource c) (call_samples c)
                (call_rules c) fr log Hinv) as (ev & fr1 & Hrun1 & Hinv1).
    destruct (IH fr1 _ Hinv1) as (evs & fr2 & Hrun2 & Hinv2).
    exists (ev ++ evs)%list, fr2. split.
    + cbn [run]. erewrite bind_returns by exact Hrun1.
      erewrite bind_returns by exact Hrun2. reflexivity.
    + rewrite app_assoc. exact Hinv2.
Qed.

Lemma consistent_empty : consistent empty [].
Proof. intros k. cbn. rewrite lookup_empty. reflexivity. Qed.

End AlertEngineFacts.

Example cpu_scenario :
  fst (AlertEngine.run (map cpu_call [50; 95; 92; 80])
         (mk_Frame AlertEngine.empty world0))
  = inr [ Alert.mk "vm-1" "cpu" (float_of_Z 90) (float_of_Z 95) "critical"
            (wall_clock 7) false;
          Alert.mk "vm-1" "cpu" (float_of_Z 90) (float_of_Z 95) "critical"
            (wall_clock 8) true ].
Proof. vm_compute. reflexivity. Qed.

Example cpu_scenario_open :
  AlertEngine.open_alerts
    (self (snd (AlertEngine.run (map cpu_call [50; 95; 92])
                  (mk_Frame AlertEngine.empty world0))))
    !! ("vm-1", "cpu")
  = Some (Alert.mk "vm-1" "cpu" (float_of_Z 90) (float_of_Z 95) "critical"
            (wall_clock 7) false).
Proof. vm_compute. reflexivity. Qed.

(** C4: every run of [evaluate] calls on an engine created empty
    returns, and afterwards, for every key (resource_id, metric_name),
    the alerts raised for the key exceed the alerts resolved for it by
    at most one; they exceed them by exactly one when the key is in the
    open-alert map, whose entry is then an unresolved alert of that
    key, and not at all when it is not. *)
Theorem C4_one_open_alert_per_key (calls : list AlertEngine.call) (w : World) :
  exists log fr,
    AlertEngine.run calls (mk_Frame AlertEngine.empty w) = (inr log, fr)
    /\ AlertEngine.consistent (self fr) log
    /\ forall k,
         (AlertEngine.cleared k log <= AlertEngine.raised k log
          <= S (AlertEngine.cleared k log))%nat
         /\ (AlertEngine.raised k log = S (AlertEngine.cleared k log)
             <-> is_Some (AlertEngine.open_alerts (self fr) !! k)).
Proof.
  destruct (run_consistent calls (mk_Frame AlertEngine.empty w) []
              consistent_empty) as (log & fr & Hrun & Hinv).
  rewrite app_nil_l in Hinv.
  exists log, fr. split; [exact Hrun |]. split; [exact Hinv |].
  intros k. specialize (Hinv k).
  destruct (AlertEngine.open_alerts (self fr) !! k) as [a |].
  - destruct Hinv as (_ & _ & Hcount). split; [lia |]. split; eauto.
  - cbv beta iota in Hinv. split; [lia |]. split; [lia | intros [? ?]; discriminate].
Qed.


(** ** Serialisation loses nothing *)

Section Lossless.


Lemma sample_dict_lookups (fr : Frame MetricData.t) :
  exists d,
    MetricData.to_dict fr = (inr d, fr)
    /\ d !! "name" = Some (PStr (MetricData.name (self fr)))
    /\ d !! "value" = Some (PFloat (MetricData.value (self fr)))
    /\ d !! "unit" = Some (PStr (MetricData.unit (self fr)))
    /\ d !! "timestamp" = Some (PStr (isoformat (MetricData.timestamp (self fr)))).
Proof.
  rewrite to_dict_run. eexists. split; [reflexivity |].
  repeat split;
    repeat (rewrite lookup_insert_ne by discriminate); apply lookup_insert_eq.
Qed.

Lemma alert_dict_lookups (fr : Frame Alert.t) :
  exists d,
    Alert.to_dict fr = (inr d, fr)
    /\ d !! "resource_id" = Some (PStr (Alert.resource_id (self fr)))
    /\ d !! "metric_name" = Some (PStr (Alert.metric_name (self fr)))
    /\ d !! "threshold" = Some (PFloat (Alert.threshold (self fr)))
    /\ d !! "current_value" = Some (PFloat (Alert.current_value (self fr)))
    /\ d !! "severity" = Some (PStr (Alert.severity (self fr)))
    /\ d !! "timestamp" = Some (PStr (isoformat (Alert.timestamp (self fr))))
    /\ d !! "resolved" = Some (PBool (Alert.resolved (self fr))).
Proof.
  destruct (alert_to_dict_run fr) as (d & Hrun & ->).
  eexists. split; [exact Hrun |].
  repeat split;
    repeat (rewrite lookup_insert_ne by discriminate); apply lookup_insert_eq.
Qed.

End Lossless.





(** X3: the dictionary of a sample and the dictionary of an alert
    have only the key timestamp in common, so no sample serialises to
    the dictionary of an alert. *)
Theorem X3_sample_and_alert_dicts_differ
    (frm : Frame MetricData.t) (fra : Frame Alert.t) :
  exists dm da,
    fst (MetricData.to_dict frm) = inr dm
    /\ fst (Alert.to_dict fra) = inr da
    /\ dom dm ∩ dom da =@{gset string} {[ "timestamp" ]}
    /\ dm <> da.
Proof.
  destruct (sample_dict_lookups frm) as (dm & Hm & Hname & _).
  destruct (alert_to_dict_run fra) as (da & Ha & Hda).
  exists dm, da. rewrite Hm, Ha. split; [reflexivity |]. split; [reflexivity |].
  assert (da !! "name" = None) as Hnone.
  { subst da. repeat (rewrite lookup_insert_ne by discriminate).
    apply lookup_empty. }
  split.
  - rewrite to_dict_run in Hm. injection Hm as <-. subst da.
    rewrite !dom_insert_L, !dom_empty_L. set_solver.
  - intros Heq. rewrite Heq, Hnone in Hname. discriminate.
Qed.

(** X4: a new alert serialises as an open one: its dictionary has
    resolved False, carries the value and the threshold it was built
    from, and its timestamp string parses back to the clock reading
    the constructor took, the only reading it takes. *)
Theorem X4_fresh_alert_dict rid metric thr cur sev w :
  exists a w' d s,
    Alert.__init__ rid metric thr cur sev w = (inr a, w')
    /\ ticks w' = S (ticks w)
    /\ Alert.to_dict (mk_Frame a w') = (inr d, mk_Frame a w')
    /\ d !! "resolved" = Some (PBool false)
    /\ d !! "current_value" = Some (PFloat cur)
    /\ d !! "threshold" = Some (PFloat thr)
    /\ d !! "timestamp" = Some (PStr s)
    /\ fromisoformat s = Some (current_time w).
Proof.
  rewrite alert_init_run.
  destruct (alert_dict_lookups
              (mk_Frame (Alert.mk rid metric thr cur sev (current_time w) false)
                        {| clock := clock w; ticks := S (ticks w) |}))
    as (d & Hrun & _ & _ & Hthr & Hcur & _ & Hts & Hres).
  do 4 eexists. split; [reflexivity |]. split; [reflexivity |].
  split; [exact Hrun |]. split; [exact Hres |]. split; [exact Hcur |].
  split; [exact Hthr |]. split; [exact Hts |].
  apply fromisoformat_isoformat_naive, current_time_naive.
Qed.

(** ** Runs of calls on a resource *)

Section CallsFacts.

Import Calls.

Lemma invoke_frame m fr :
  snd (invoke m fr) = fr
  /\ expected (CloudResource.status (self fr)) m (fst (invoke m fr)).
Proof.
  destruct m; cbn; split; try reflexivity. eexists. reflexivity.
Qed.

End CallsFacts.

(** X5: whatever calls are made on a resource through the methods of
    the base class, in whatever order, the resource and the clock end
    as they began; every [collect_metrics] raises
    [NotImplementedError] and every [get_health_status] returns the
    status the resource had at the start. *)
Theorem X5_calls_never_change_resource (ms : list Calls.method)
    (fr : Frame CloudResource.t) :
  snd (Calls.invoke_all ms fr) = fr
  /\ Forall2 (Calls.expected (CloudResource.status (self fr))) ms
       (fst (Calls.invoke_all ms fr)).
Proof.
  induction ms as [| m rest IH]; [split; [reflexivity | constructor] |].
  cbn [Calls.invoke_all].
  destruct (invoke_frame m fr) as [Hfr Hexp].
  destruct (Calls.invoke m fr) as [o fr1]. cbn [fst snd] in Hfr, Hexp. subst fr1.
  destruct IH as [IHfr IHexp].
  destruct (Calls.invoke_all rest fr) as [os fr2]. cbn [fst snd] in *.
  split; [exact IHfr | constructor; assumption].
Qed.

(** ** Resources and their dictionaries in the store *)

Section StoreFacts.

Lemma new_dict_run (h : gmap positive Dict) :
  Store.new_dict h = (inr (fresh (dom h)), <[fresh (dom h) := ∅]> h).
Proof. reflexivity. Qed.

Lemma object_init_run rid rtype region (h : gmap positive Dict) :
  let md := fresh (dom h) in
  let mt := fresh (dom (<[md := ∅]> h)) in
  CloudResourceObject.__init__ rid rtype region h
  = (inr (CloudResourceObject.mk rid rtype region md mt "unknown"),
     <[mt := ∅]> (<[md := ∅]> h)).
Proof. reflexivity. Qed.

Lemma object_init_fresh rid rtype region (h : gmap positive Dict) :
  exists r h',
    CloudResourceObject.__init__ rid rtype region h = (inr r, h')
    /\ r = CloudResourceObject.mk rid rtype region
             (CloudResourceObject.metadata r) (CloudResourceObject.metrics r)
             "unknown"
    /\ CloudResourceObject.metadata r <> CloudResourceObject.metrics r
    /\ (CloudResourceObject.metadata r ∉ dom h)
    /\ (CloudResourceObject.metrics r ∉ dom h)
    /\ h' !! CloudResourceObject.metadata r = Some ∅
    /\ h' !! CloudResourceObject.metrics r = Some ∅
    /\ (forall l, l ∈ dom h -> h' !! l = h !! l).
Proof.
  pose proof (object_init_run rid rtype region h) as Hrun. cbv zeta in Hrun.
  set (md := fresh (dom h)) in *.
  set (mt := fresh (dom (<[md := ∅]> h))) in *.
  assert (md ∉ dom h) as Hmd by apply is_fresh.
  assert (mt ∉ dom (<[md := ∅]> h)) as Hmt by apply is_fresh.
  rewrite dom_insert_L in Hmt.
  assert (mt <> md) as Hne by set_solver.
  do 2 eexists. split; [exact Hrun |].
  cbn [CloudResourceObject.metadata CloudResourceObject.metrics].
  split; [reflexivity |].
  split; [congruence |]. split; [exact Hmd |]. split; [set_solver |].
  split; [rewrite (lookup_insert_ne _ mt md) by exact Hne; apply lookup_insert_eq |].
  split; [apply lookup_insert_eq |].
  intros l Hl.
  rewrite (lookup_insert_ne _ mt l) by set_solver.
  rewrite (lookup_insert_ne _ md l) by set_solver. reflexivity.
Qed.

End StoreFacts.

(** X6: the two dictionaries of a new resource are two new objects,
    different from each other and from every dictionary that existed;
    both are empty, the dictionaries that existed are as they were, and
    read from the store the resource is the one [__init__] describes
    by value. *)
Theorem X6_resource_dicts_fresh rid rtype region (h : gmap positive Dict) w :
  exists r h' v,
    CloudResourceObject.__init__ rid rtype region h = (inr r, h')
    /\ CloudResourceObject.metadata r <> CloudResourceObject.metrics r
    /\ (CloudResourceObject.metadata r ∉ dom h)
    /\ (CloudResourceObject.metrics r ∉ dom h)
    /\ h' !! CloudResourceObject.metadata r = Some ∅
    /\ h' !! CloudResourceObject.metrics r = Some ∅
    /\ (forall l, l ∈ dom h -> h' !! l = h !! l)
    /\ CloudResource.__init__ rid rtype region w = (inr v, w)
    /\ CloudResourceObject.read h' r = Some v.
Proof.
  destruct (object_init_fresh rid rtype region h)
    as (r & h' & Hrun & Hr & Hne & Hmd & Hmt & Hlmd & Hlmt & Hold).
  exists r, h'. eexists. split; [exact Hrun |].
  split; [exact Hne |]. split; [exact Hmd |]. split; [exact Hmt |].
  split; [exact Hlmd |]. split; [exact Hlmt |]. split; [exact Hold |].
  split; [reflexivity |].
  unfold CloudResourceObject.read. rewrite Hlmd, Hlmt. cbn [mbind option_bind].
  rewrite Hr at 1 2 3 4. reflexivity.
Qed.

(** X7: two resources built one after the other share no dictionary:
    writing any dictionary in place of the second one's metrics or
    metadata leaves the first resource, read from the store, as it
    was. *)
Theorem X7_resources_share_no_dict rid1 rtype1 region1 rid2 rtype2 region2
    (h : gmap positive Dict) (d : Dict) :
  exists r1 h1 r2 h2,
    CloudResourceObject.__init__ rid1 rtype1 region1 h = (inr r1, h1)
    /\ CloudResourceObject.__init__ rid2 rtype2 region2 h1 = (inr r2, h2)
    /\ CloudResourceObject.read (<[CloudResourceObject.metrics r2 := d]> h2) r1
       = CloudResourceObject.read h1 r1
    /\ CloudResourceObject.read (<[CloudResourceObject.metadata r2 := d]> h2) r1
       = CloudResourceObject.read h1 r1.
Proof.
  destruct (object_init_fresh rid1 rtype1 region1 h)
    as (r1 & h1 & Hrun1 & _ & _ & _ & _ & Hlmd1 & Hlmt1 & _).
  destruct (object_init_fresh rid2 rtype2 region2 h1)
    as (r2 & h2 & Hrun2 & _ & _ & Hmd2 & Hmt2 & _ & _ & Hold).
  exists r1, h1, r2, h2. split; [exact Hrun1 |]. split; [exact Hrun2 |].
  assert (CloudResourceObject.metadata r1 ∈ dom h1) as Hin1
    by (apply elem_of_dom; eauto).
  assert (CloudResourceObject.metrics r1 ∈ dom h1) as Hin2
    by (apply elem_of_dom; eauto).
  assert (forall l x, l ∈ dom h1 -> x ∉ dom h1 -> x <> l) as Hfresh
    by (intros l x Hl Hx ->; exact (Hx Hl)).
  unfold CloudResourceObject.read.
  split.
  - rewrite (lookup_insert_ne _ _ (CloudResourceObject.metadata r1)) by auto.
    rewrite (lookup_insert_ne _ _ (CloudResourceObject.metrics r1)) by auto.
    rewrite !Hold by assumption. reflexivity.
  - rewrite (lookup_insert_ne _ _ (CloudResourceObject.metadata r1)) by auto.
    rewrite (lookup_insert_ne _ _ (CloudResourceObject.metrics r1)) by auto.
    rewrite !Hold by assumption. reflexivity.
Qed.

(** ** The width of timestamp strings *)

Section Width.

Lemma length_append (a b : string) :
  String.length (a +:+ b) = (String.length a + String.length b)%nat.
Proof.
  induction a as [| c a IH]; [reflexivity |].
  rewrite append_cons. cbn [String.length]. rewrite IH. reflexivity.
Qed.

Lemma length_fixed_digits k : forall n, String.length (fixed_digits k n) = k.
Proof.
  induction k as [| k IH]; intros n; [reflexivity |].
  cbn [fixed_digits String.length]. rewrite IH. reflexivity.
Qed.

Lemma length_fmt_d k n : 0 <= n < pow10 k -> String.length (fmt_d k n) = k.
Proof. intros Hn. rewrite fmt_d_fixed by exact Hn. apply length_fixed_digits. Qed.

Lemma mod_mod_minutes a :
  0 <= a -> (a mod 3600000000) mod 60000000 = a mod 60000000.
Proof.
  intros Ha.
  pose proof (Z.div_mod a 3600000000).
  pose proof (Z.div_mod (a mod 3600000000) 60000000).
  pose proof (Z.div_mod a 60000000).
  pose proof (Z.mod_pos_bound a 3600000000).
  pose proof (Z.mod_pos_bound (a mod 3600000000) 60000000).
  pose proof (Z.mod_pos_bound a 60000000). lia.
Qed.

Lemma mod_mod_seconds a :
  0 <= a -> (a mod 60000000) mod 1000000 = a mod 1000000.
Proof.
  intros Ha.
  pose proof (Z.div_mod a 60000000).
  pose proof (Z.div_mod (a mod 60000000) 1000000).
  pose proof (Z.div_mod a 1000000).
  pose proof (Z.mod_pos_bound a 60000000).
  pose proof (Z.mod_pos_bound (a mod 60000000) 1000000).
  pose proof (Z.mod_pos_bound a 1000000). lia.
Qed.

Lemma length_format_offset_abs a :
  0 <= a < day_us ->
  String.length (format_offset_abs a)
  = (5 + (if (a mod 60000000 =? 0)%Z then 0
          else if (a mod 1000000 =? 0)%Z then 3 else 10))%nat.
Proof.
  unfold day_us. intros Ha. unfold format_offset_abs.
  rewrite mod_mod_minutes, mod_mod_seconds by lia.
  assert (0 <= a / 3600000000 < pow10 2) as Hhh.
  { unfold pow10. cbn. split; [apply Z.div_pos; lia | apply Z.div_lt_upper_bound; lia]. }
  assert (0 <= a mod 3600000000 / 60000000 < pow10 2) as Hmm.
  { pose proof (Z.mod_pos_bound a 3600000000).
    unfold pow10. cbn. split; [apply Z.div_pos; lia | apply Z.div_lt_upper_bound; lia]. }
  assert (0 <= a mod 60000000 / 1000000 < pow10 2) as Hss.
  { pose proof (Z.mod_pos_bound a 60000000).
    unfold pow10. cbn. split; [apply Z.div_pos; lia | apply Z.div_lt_upper_bound; lia]. }
  assert (0 <= a mod 1000000 < pow10 6) as Hus.
  { unfold pow10. cbn. apply Z.mod_pos_bound. lia. }
  rewrite !length_append, !length_fmt_d by assumption.
  destruct (a mod 60000000 =? 0); [reflexivity |].
  rewrite !length_append, !length_fmt_d by assumption.
  destruct (a mod 1000000 =? 0); [reflexivity |].
  rewrite !length_append, !length_fmt_d by assumption. reflexivity.
Qed.

Lemma length_format_offset off :
  Is_true (check_utcoffset off) ->
  String.length (format_offset off) = offset_width off.
Proof.
  destruct off as [o |]; [| reflexivity].
  unfold check_utcoffset.
  rewrite andb_True, !Is_true_true, !Z.ltb_lt. intros [Hlo Hhi].
  unfold format_offset, offset_width.
  destruct (Z.ltb_spec o 0) as [Hneg | Hpos].
  - rewrite append_cons, append_nil. cbn [String.length].
    rewrite length_format_offset_abs by lia.
    rewrite (Z.abs_neq o) by lia.
    repeat destruct (_ =? 0); reflexivity.
  - rewrite append_cons, append_nil. cbn [String.length].
    rewrite length_format_offset_abs by lia.
    rewrite (Z.abs_eq o) by lia.
    repeat destruct (_ =? 0); reflexivity.
Qed.

Lemma length_isoformat (d : datetime) :
  String.length (isoformat d) = timestamp_width d.
Proof.
  pose proof (check_fields_bounds _ _ _ _ _ _ _ _ (fields_ok d))
    as ((Hy & Hm & Hd) & (Hh & Hmi & Hs & Hus) & Hoff).
  unfold isoformat, format_time, timestamp_width.
  rewrite !length_append, length_format_offset by exact Hoff.
  rewrite !length_fmt_d by (unfold pow10; cbn; lia).
  destruct (Z.eqb_spec (microsecond d) 0) as [Hz | Hnz].
  - cbn [String.length]. lia.
  - rewrite length_append, length_fmt_d by (unfold pow10; cbn; lia).
    cbn [String.length]. lia.
Qed.

Lemma timestamp_width_bounds (d : datetime) : (19 <= timestamp_width d <= 42)%nat.
Proof.
  unfold timestamp_width, offset_width.
  destruct (microsecond d =? 0); destruct (utcoffset d) as [o |];
    repeat destruct (_ =? 0); lia.
Qed.

End Width.

(** X8: the timestamp string of a sample's dictionary, and of an
    alert's, has 19 characters for the date and the time to the second,
    7 more when the microsecond is not zero, and 6, 9 or 16 more for a
    UTC offset in whole minutes, whole seconds or neither; in all
    between 19 and 42. *)
Theorem X8_timestamp_width :
  (forall fr : Frame MetricData.t, exists d s,
      fst (MetricData.to_dict fr) = inr d
      /\ d !! "timestamp" = Some (PStr s)
      /\ String.length s = timestamp_width (MetricData.timestamp (self fr))
      /\ (19 <= String.length s <= 42)%nat)
  /\ (forall fr : Frame Alert.t, exists d s,
        fst (Alert.to_dict fr) = inr d
        /\ d !! "timestamp" = Some (PStr s)
        /\ String.length s = timestamp_width (Alert.timestamp (self fr))
        /\ (19 <= String.length s <= 42)%nat).
Proof.
  split; intros fr.
  - destruct (sample_dict_lookups fr) as (d & -> & _ & _ & _ & Hts).
    exists d. eexists. split; [reflexivity |]. split; [exact Hts |].
    rewrite length_isoformat. split; [reflexivity | apply timestamp_width_bounds].
  - destruct (alert_dict_lookups fr) as (d & -> & _ & _ & _ & _ & _ & Hts & _).
    exists d. eexists. split; [reflexivity |]. split; [exact Hts |].
    rewrite length_isoformat. split; [reflexivity | apply timestamp_width_bounds].
Qed.

Example timestamp_width_noon : String.length (isoformat noon) = 19%nat.
Proof. reflexivity. Qed.

Example timestamp_width_leap_evening :
  String.length (isoformat leap_evening) = 32%nat
  /\ timestamp_width leap_evening = 32%nat.
Proof. split; reflexivity. Qed.

(** ** Timestamp strings sort as the timestamps do *)

Section Order.

Lemma ascii_compare_refl c : Ascii.compare c c = Eq.
Proof. unfold Ascii.compare. apply N.compare_refl. Qed.

Lemma compare_cons c r1 r2 :
  String.compare (String c r1) (String c r2) = String.compare r1 r2.
Proof. cbn [String.compare]. rewrite ascii_compare_refl. reflexivity. Qed.

Lemma digit_char_compare a b :
  0 <= a <= 9 -> 0 <= b <= 9 ->
  Ascii.compare (digit_char a) (digit_char b) = (a ?= b).
Proof.
  intros Ha Hb.
  assert (a = 0 \/ a = 1 \/ a = 2 \/ a = 3 \/ a = 4 \/ a = 5 \/ a = 6
          \/ a = 7 \/ a = 8 \/ a = 9) as Ea by lia.
  assert (b = 0 \/ b = 1 \/ b = 2 \/ b = 3 \/ b = 4 \/ b = 5 \/ b = 6
          \/ b = 7 \/ b = 8 \/ b = 9) as Eb by lia.
  repeat (destruct Ea as [-> | Ea]);
    repeat (destruct Eb as [-> | Eb]); subst; reflexivity.
Qed.

Lemma lex_assoc c1 c2 c3 : lex (lex c1 c2) c3 = lex c1 (lex c2 c3).
Proof. destruct c1; reflexivity. Qed.

(** Comparing two numbers is comparing their quotients, then their
    remainders. *)
Lemma compare_div_mod a b p :
  0 < p -> (a ?= b) = lex (a / p ?= b / p) (a mod p ?= b mod p).
Proof.
  intros Hp.
  pose proof (Z.div_mod a p). pose proof (Z.div_mod b p).
  pose proof (Z.mod_pos_bound a p Hp). pose proof (Z.mod_pos_bound b p Hp).
  destruct (Z.compare_spec (a / p) (b / p)) as [Hq | Hq | Hq]; cbn [lex].
  - rewrite Hq in *.
    destruct (Z.compare_spec (a mod p) (b mod p));
      [apply Z.compare_eq_iff | apply Z.compare_lt_iff | apply Z.compare_gt_iff];
      lia.
  - apply Z.compare_lt_iff.
    assert (p * (a / p + 1) <= p * (b / p)) by (apply Z.mul_le_mono_nonneg_l; lia).
    lia.
  - apply Z.compare_gt_iff.
    assert (p * (b / p + 1) <= p * (a / p)) by (apply Z.mul_le_mono_nonneg_l; lia).
    lia.
Qed.

Lemma compare_fixed_digits k : forall a b r1 r2,
  0 <= a < pow10 k -> 0 <= b < pow10 k ->
  String.compare (fixed_digits k a +:+ r1) (fixed_digits k b +:+ r2)
  = lex (a ?= b) (String.compare r1 r2).
Proof.
  induction k as [| k IH]; intros a b r1 r2 Ha Hb.
  - unfold pow10 in Ha, Hb. cbn in Ha, Hb.
    assert (a = 0) as -> by lia. assert (b = 0) as -> by lia. reflexivity.
  - rewrite pow10_S in Ha, Hb. pose proof (pow10_pos k) as Hp.
    assert (0 <= a / pow10 k <= 9) as Hqa.
    { split; [apply Z.div_pos; lia |].
      assert (a / pow10 k < 10); [apply Z.div_lt_upper_bound; lia | lia]. }
    assert (0 <= b / pow10 k <= 9) as Hqb.
    { split; [apply Z.div_pos; lia |].
      assert (b / pow10 k < 10); [apply Z.div_lt_upper_bound; lia | lia]. }
    cbn [fixed_digits]. rewrite !append_cons. cbn [String.compare].
    rewrite digit_char_compare by assumption.
    rewrite IH by (apply Z.mod_pos_bound; lia).
    rewrite (compare_div_mod a b (pow10 k)) by lia.
    rewrite lex_assoc. destruct (a / pow10 k ?= b / pow10 k); reflexivity.
Qed.

Lemma compare_fmt_d k a b r1 r2 :
  0 <= a < pow10 k -> 0 <= b < pow10 k ->
  String.compare (fmt_d k a +:+ r1) (fmt_d k b +:+ r2)
  = lex (a ?= b) (String.compare r1 r2).
Proof.
  intros Ha Hb. rewrite !fmt_d_fixed by assumption.
  apply compare_fixed_digits; assumption.
Qed.

(** A present fraction sorts after an absent one. *)
Lemma compare_fraction us1 us2 :
  0 <= us1 <= 999999 -> 0 <= us2 <= 999999 ->
  String.compare ((if us1 =? 0 then "" else "." +:+ fmt_d 6 us1) +:+ "")
                 ((if us2 =? 0 then "" else "." +:+ fmt_d 6 us2) +:+ "")
  = (us1 ?= us2).
Proof.
  intros H1 H2.
  destruct (Z.eqb_spec us1 0) as [-> | Hn1];
    destruct (Z.eqb_spec us2 0) as [-> | Hn2];
    rewrite ?append_nil, ?append_assoc, ?append_cons, ?append_nil.
  - reflexivity.
  - cbn [String.compare]. symmetry. apply Z.compare_lt_iff. lia.
  - cbn [String.compare]. symmetry. apply Z.compare_gt_iff. lia.
  - rewrite compare_cons, compare_fmt_d by (unfold pow10; cbn; lia).
    destruct (us1 ?= us2); reflexivity.
Qed.

Lemma compare_isoformat_naive (d1 d2 : datetime) :
  utcoffset d1 = None -> utcoffset d2 = None ->
  String.compare (isoformat d1) (isoformat d2) = cmp_naive d1 d2.
Proof.
  intros Hn1 Hn2.
  pose proof (check_fields_bounds _ _ _ _ _ _ _ _ (fields_ok d1))
    as ((Hy1 & Hm1 & Hd1) & (Hh1 & Hmi1 & Hs1 & Hus1) & _).
  pose proof (check_fields_bounds _ _ _ _ _ _ _ _ (fields_ok d2))
    as ((Hy2 & Hm2 & Hd2) & (Hh2 & Hmi2 & Hs2 & Hus2) & _).
  unfold isoformat, format_time, cmp_naive. rewrite Hn1, Hn2.
  cbn [format_offset]. rewrite !append_assoc.
  repeat (rewrite compare_fmt_d by (unfold pow10; cbn; lia);
          f_equal; rewrite ?append_cons, ?append_nil, ?compare_cons).
  apply compare_fraction; assumption.
Qed.

End Order.

(** X9: for two samples whose timestamps are naive, as those taken
    from [datetime.now()] are, the timestamp strings of their
    dictionaries compare, character by character, as the timestamps
    compare: sorting the strings sorts the samples by time. *)
Theorem X9_timestamp_strings_sort (fr1 fr2 : Frame MetricData.t) :
  utcoffset (MetricData.timestamp (self fr1)) = None ->
  utcoffset (MetricData.timestamp (self fr2)) = None ->
  exists d1 d2 s1 s2,
    fst (MetricData.to_dict fr1) = inr d1
    /\ fst (MetricData.to_dict fr2) = inr d2
    /\ d1 !! "timestamp" = Some (PStr s1)
    /\ d2 !! "timestamp" = Some (PStr s2)
    /\ String.compare s1 s2
       = cmp_naive (MetricData.timestamp (self fr1)) (MetricData.timestamp (self fr2)).
Proof.
  intros Hn1 Hn2.
  destruct (sample_dict_lookups fr1) as (d1 & -> & _ & _ & _ & Hts1).
  destruct (sample_dict_lookups fr2) as (d2 & -> & _ & _ & _ & Hts2).
  exists d1, d2. do 2 eexists.
  split; [reflexivity |]. split; [reflexivity |].
  split; [exact Hts1 |]. split; [exact Hts2 |].
  apply compare_isoformat_naive; assumption.
Qed.

Lemma X9_timestamp_strings_sort_witness :
  utcoffset (MetricData.timestamp
               (self (mk_Frame (MetricData.mk "cpu" nan "percent" morning) world0)))
  = None
  /\ utcoffset (MetricData.timestamp (self (mk_Frame (cpu_sample 95) world0)))
     = None
  /\ exists d1 d2 s1 s2,
       fst (MetricData.to_dict
              (mk_Frame (MetricData.mk "cpu" nan "percent" morning) world0))
       = inr d1
       /\ fst (MetricData.to_dict (mk_Frame (cpu_sample 95) world0)) = inr d2
       /\ d1 !! "timestamp" = Some (PStr s1)
       /\ d2 !! "timestamp" = Some (PStr s2)
       /\ String.compare s1 s2
          = cmp_naive
              (MetricData.timestamp
                 (self (mk_Frame (MetricData.mk "cpu" nan "percent" morning) world0)))
              (MetricData.timestamp (self (mk_Frame (cpu_sample 95) world0))).
Proof.
  split; [reflexivity |]. split; [reflexivity |].
  apply (X9_timestamp_strings_sort
           (mk_Frame (MetricData.mk "cpu" nan "percent" morning) world0)
           (mk_Frame (cpu_sample 95) world0)); reflexivity.
Defined.

Example morning_before_noon :
  String.compare (isoformat morning) (isoformat noon) = Lt
  /\ cmp_naive morning noon = Lt.
Proof. split; reflexivity. Qed.

(** ** From the constructor's arguments to the dictionary *)

(** X10: a sample constructed from any arguments and serialised gives
    those arguments back: name, value (NaN and the infinities as they
    are) and unit under their keys, and as timestamp the string
    [isoformat] writes for the timestamp supplied or, when none was,
    for the clock reading the constructor took.  [fromisoformat] reads
    that string as the same date and time, with the same offset unless
    the offset is under a second, which it returns as zero. *)
Theorem X10_construct_then_serialise name value unit (ts : option datetime) w :
  exists m w' d s t,
    MetricData.__init__ name value unit ts w = (inr m, w')
    /\ MetricData.to_dict (mk_Frame m w') = (inr d, mk_Frame m w')
    /\ d !! "name" = Some (PStr name)
    /\ d !! "value" = Some (PFloat value)
    /\ d !! "unit" = Some (PStr unit)
    /\ d !! "timestamp" = Some (PStr s)
    /\ s = isoformat (default (current_time w) ts)
    /\ fromisoformat s = Some t
    /\ civil t = civil (default (current_time w) ts)
    /\ utcoffset t = library_offset (utcoffset (default (current_time w) ts))
    /\ ticks w' = match ts with Some _ => ticks w | None => S (ticks w) end.
Proof.
  destruct (fromisoformat_isoformat_civil (default (current_time w) ts))
    as (t & Hparse & Hcivil & Hoff).
  destruct ts as [ts |]; [rewrite init_supplied | rewrite init_default];
    match goal with
    | |- context [(inr ?m, ?w')] =>
        destruct (sample_dict_lookups (mk_Frame m w'))
          as (d & Hrun & Hn & Hv & Hu & Hts);
        exists m, w', d; do 2 eexists;
        split; [reflexivity |]; split; [exact Hrun |];
        split; [exact Hn |]; split; [exact Hv |]; split; [exact Hu |];
        split; [exact Hts |]; split; [reflexivity |];
        split; [exact Hparse |]; split; [exact Hcivil |];
        split; [exact Hoff | reflexivity]
    end.
Qed.
